(** * Page-interaction scripts: theme toggle, weather chip, news cards,
    cursor effect

  A shallow embedding of the four browser scripts
    - the theme toggle (an immediately-invoked function),
    - [app/static/js/weather.js],
    - [app/static/js/news.js],
    - [app/static/js/effects.js],
  together with the properties their specification states about them.

  The scripts only talk to the browser: they read and write a handful of
  DOM properties, assign [document.cookie], call [window.open],
  [console.error] and [fetch].  The browser state they can observe is
  modelled by the records of module [Dom]; every handler becomes a
  function on that state. *)

From stdpp Require Import base option list gmap strings pretty.

Open Scope string_scope.
Open Scope list_scope.

(** ** The JavaScript fragments the scripts rely on *)

Module Js.

(** A value read from a [dataset] is either [undefined] ([None]) or a
    string.  [ToBoolean] makes [undefined] and the empty string falsy and
    every other string truthy. *)
Definition truthy (v : option string) : bool :=
  match v with
  | None => false
  | Some s => if decide (s = "") then false else true
  end.

(** [v || d] for such a value [v] and a string [d]. *)
Definition or_else (v : option string) (d : string) : string :=
  match v with
  | Some s => if truthy v then s else d
  | None => d
  end.

(** An exception value: what [throw] raises and what a rejected promise
    carries. *)
Record thrown := Thrown { err_name : string; err_message : string }.

(** How a statement list or an awaited promise ends. *)
Inductive completion (A : Type) :=
| Normal (a : A)
| Throw (e : thrown).
Arguments Normal {A} a.
Arguments Throw {A} e.

(** [Number::toString] belongs to the engine, not to the scripts: the
    numbers of the model are any type that comes with its rendering. *)
Class NumberToString (number : Type) := number_to_string : number → string.

(** Whole numbers render as their decimal numeral while they are small
    enough to be exact in the engine (below [2^53] in magnitude); the
    examples use this instance at such numbers, and no theorem depends on
    it. *)
#[export] Instance Z_to_string : NumberToString Z := pretty.

(** Splitting at a separator character, as the browser does with [;] when
    it reads an assigned cookie string. *)
Fixpoint split_on (sep : Ascii.ascii) (s : string) : list string :=
  match s with
  | EmptyString => [""]
  | String c rest =>
      if decide (c = sep) then "" :: split_on sep rest
      else match split_on sep rest with
           | [] => [String c ""]
           | piece :: pieces => String c piece :: pieces
           end
  end.

(** *** Values, property reads and string conversion *)

(** The values [JSON.parse] builds.  An object keeps its members in the
    order of the parsed text.  [undefined] is no such value: where a script
    can meet it, the model has an [option]. *)
#[warnings="-register-all"]
Inductive value (number : Type) :=
| Null
| Bool (b : bool)
| Num (n : number)
| Str (s : string)
| Arr (items : list (value number))
| Obj (members : list (string * value number)).
Arguments Null {number}.
Arguments Bool {number} b.
Arguments Num {number} n.
Arguments Str {number} s.
Arguments Arr {number} items.
Arguments Obj {number} members.

Section Values.
Context {number : Type} `{!NumberToString number}.

(** The own property [key] of a parsed object: where the text repeats a
    key, [JSON.parse] keeps the last member. *)
Fixpoint own_property (key : string) (members : list (string * value number))
    : option (value number) :=
  match members with
  | [] => None
  | (k, v) :: rest =>
      match own_property key rest with
      | Some later => Some later
      | None => if decide (k = key) then Some v else None
      end
  end.

Definition type_error (message : string) : thrown := Thrown "TypeError" message.

(** [data.title].  Reading a property of [null] throws a [TypeError]; an
    object answers with its own member or, as no built-in prototype defines
    [title], with [undefined] ([None]); so does every other value. *)
Definition get_title (data : value number) : completion (option (value number)) :=
  match data with
  | Null => Throw (type_error "Cannot read properties of null")
  | Obj members => Normal (own_property "title" members)
  | _ => Normal None
  end.

(** [ToString], which a template literal applies to each substitution.
    An array is joined with commas, a [null] item counting as empty.  A parsed object answers [[object Object]] through
    [Object.prototype.toString], unless a member named [toString] shadows
    it: no member is callable, and [valueOf] gives no primitive either, so
    the conversion throws. *)
Fixpoint to_string (v : value number) : completion string :=
  match v with
  | Null => Normal "null"
  | Bool b => Normal (if b then "true" else "false")
  | Num n => Normal (number_to_string n)
  | Str s => Normal s
  | Arr items =>
      (fix join (items : list (value number)) : completion string :=
         match items with
         | [] => Normal ""
         | item :: rest =>
             let first :=
               match item with
               | Null => Normal ""
               | _ => to_string item
               end in
             match first with
             | Throw e => Throw e
             | Normal s =>
                 match rest with
                 | [] => Normal s
                 | _ :: _ =>
                     match join rest with
                     | Throw e => Throw e
                     | Normal r => Normal (s +:+ "," +:+ r)
                     end
                 end
             end
         end) items
  | Obj members =>
      match own_property "toString" members with
      | Some _ => Throw (type_error "Cannot convert object to primitive value")
      | None => Normal "[object Object]"
      end
  end.

(** The template literal [`${v}`] for a value that may be [undefined]. *)
Definition template (v : option (value number)) : completion string :=
  match v with
  | None => Normal "undefined"
  | Some v => to_string v
  end.

End Values.

End Js.

(** ** The part of the browser state the scripts touch *)

Module Dom.

(** An element, with the properties some script reads or writes.  The
    document lists its elements flat, in document order, and of an
    element's content only its text is kept.  Nesting is outside the model:
    assigning [textContent] also removes the children of the element, so
    what the model says after such an assignment is said of the element
    assigned to, not of elements that may have been nested in it. *)
Record element := Element {
  el_id : option string;             (* the [id] attribute *)
  el_class : list string;            (* [classList] *)
  el_dataset : gmap string string;   (* [dataset]: the [data-*] attributes *)
  textContent : string;
  style_left : string;               (* [style.left], [""] when unset *)
  style_top : string                 (* [style.top] *)
}.

(** The document: the [dataset] of [document.documentElement], the
    strings assigned to [document.cookie] (oldest first) and the other
    elements in document order. *)
Record page := Page {
  root_dataset : gmap string string;
  cookie_writes : list string;
  elements : list element
}.

(** The window: its document, the calls made to [window.open] (URL and
    target, oldest first) and the calls made to [console.error]. *)
Record window := Window {
  document : page;
  opened : list (string * string);
  console_errors : list (string * Js.thrown)
}.

(** [document.getElementById(id)]: the first element, in document order,
    with that id; [None] is JavaScript's [null]. *)
Definition getElementById (id : string) (p : page) : option nat :=
  fst <$> list_find (λ e, el_id e = Some id) (elements p).

(** The rendering mode of the document, which decides how a class selector
    compares names: exactly, or in quirks mode without regard to the case
    of ASCII letters.  (Limited-quirks mode compares as no-quirks mode
    does.) *)
Inductive document_mode := NoQuirks | Quirks.

Definition ascii_lowercase_char (c : Ascii.ascii) : Ascii.ascii :=
  let n := Ascii.nat_of_ascii c in
  if ((65 <=? n) && (n <=? 90))%nat then Ascii.ascii_of_nat (n + 32) else c.

Fixpoint ascii_lowercase (s : string) : string :=
  match s with
  | EmptyString => EmptyString
  | String c rest => String (ascii_lowercase_char c) (ascii_lowercase rest)
  end.

(** Whether the class selector [.cls] matches an element with these class
    names. *)
Definition class_selector_matches (mode : document_mode) (cls : string)
    (classes : list string) : bool :=
  match mode with
  | NoQuirks => bool_decide (cls ∈ classes)
  | Quirks => bool_decide (ascii_lowercase cls ∈ ascii_lowercase <$> classes)
  end.

(** [document.querySelectorAll("." + cls)]: every element the selector
    matches, in document order. *)
Definition querySelectorAll_class (mode : document_mode) (cls : string) (p : page)
    : list nat :=
  fst <$> filter (λ ie, class_selector_matches mode cls (el_class ie.2) = true)
                 (imap pair (elements p)).

(** [e.textContent = t] *)
Definition with_textContent (t : string) (e : element) : element :=
  Element (el_id e) (el_class e) (el_dataset e) t (style_left e) (style_top e).

(** [e.style.left = v] and [e.style.top = v].  The handlers only assign a
    number followed by [px], a length the style setter accepts and
    stores. *)
Definition with_style_left (v : string) (e : element) : element :=
  Element (el_id e) (el_class e) (el_dataset e) (textContent e) v (style_top e).

Definition with_style_top (v : string) (e : element) : element :=
  Element (el_id e) (el_class e) (el_dataset e) (textContent e) (style_left e) v.

(** Updating the element at position [i] of the document. *)
Definition update_element (i : nat) (f : element → element) (p : page) : page :=
  Page (root_dataset p) (cookie_writes p) (alter f i (elements p)).

Definition with_document (p : page) (w : window) : window :=
  Window p (opened w) (console_errors w).

(** Event listeners.  A script attaches a callback to the document or to
    an element, for one event type; the callbacks are the five functions
    the scripts pass to [addEventListener]. *)
Inductive target := OnDocument | OnElement (i : nat).

Inductive callback :=
| ThemeToggleClick
| LoadWeather
| NewsCardsReady
| NewsCardClick (card : nat)
| CursorMove.

Record listener := Listener {
  l_target : target;
  l_type : string;
  l_callback : callback
}.

Definition addEventListener (t : target) (type : string) (cb : callback)
    (ls : list listener) : list listener :=
  ls ++ [Listener t type cb].

End Dom.

(** ** Running statements against the window

    A statement list transforms the window and ends normally, with a value,
    or by throwing; a throw skips the statements after it. *)

Module Run.
Import Js Dom.

Definition M (A : Type) : Type := window → completion A * window.

#[export] Instance M_ret : MRet M := λ A a w, (Normal a, w).

#[export] Instance M_bind : MBind M := λ A B k m w,
  match m w with
  | (Normal a, w') => k a w'
  | (Throw e, w') => (Throw e, w')
  end.

(** An expression that yields or throws without touching the window; also
    [await] on a promise that has settled with that outcome. *)
Definition await {A : Type} (settled : completion A) : M A :=
  λ w, (settled, w).

(** [try { body } catch (err) { handler }] *)
Definition try_catch {A : Type} (body : M A) (handler : thrown → M A) : M A :=
  λ w, match body w with
       | (Normal a, w') => (Normal a, w')
       | (Throw err, w') => handler err w'
       end.

Definition get_element_by_id (id : string) : M (option nat) :=
  λ w, (Normal (getElementById id (document w)), w).

(** [el.textContent = t] *)
Definition set_textContent (el : nat) (t : string) : M unit :=
  λ w, (Normal tt, with_document (update_element el (with_textContent t) (document w)) w).

(** [console.error(label, err)] *)
Definition console_error (label : string) (err : thrown) : M unit :=
  λ w, (Normal tt, Window (document w) (opened w) (console_errors w ++ [(label, err)])).

(** [window.open(url, target)] *)
Definition window_open (url target : string) : M unit :=
  λ w, (Normal tt, Window (document w) (opened w ++ [(url, target)]) (console_errors w)).

End Run.

(** ** ThemeToggle *)

Module ThemeToggle.
Import Js Dom.

(** [document.documentElement.dataset.theme || "dark"] *)
Definition current (p : page) : string :=
  or_else (root_dataset p !! "theme") "dark".

(** [current === "dark" ? "light" : "dark"] *)
Definition next_of (current : string) : string :=
  if decide (current = "dark") then "light" else "dark".

Definition next (p : page) : string := next_of (current p).

(** The template literal assigned to [document.cookie]. *)
Definition cookie_string (next : string) : string :=
  "theme=" +:+ next +:+ ";path=/;max-age=31536000;Secure;SameSite=Lax".

(** The click handler of the toggle control. *)
Definition toggle_onclick (p : page) : page :=
  let current := current p in
  let next := next_of current in
  Page (<["theme" := next]> (root_dataset p))
       (cookie_writes p ++ [cookie_string next])
       (elements p).

(** The body of the immediately-invoked function: guard and return when
    the page has no element with id [theme-toggle], else attach the click
    handler to it. *)
Definition script (p : page) (ls : list listener) : list listener :=
  match getElementById "theme-toggle" p with
  | None => ls
  | Some toggle => addEventListener (OnElement toggle) "click" ThemeToggleClick ls
  end.

End ThemeToggle.

(** ** WeatherChip *)

Module WeatherChip.
Import Js Dom Run.

Section Weather.
Context {number : Type} `{!NumberToString number}.

(** What [fetch] resolves with: the status of the response and the outcome
    of [resp.json()], a parsed value or the rejection of a body that does
    not parse. *)
Record response := Response {
  status : N;
  json : completion (value number)
}.

(** [resp.ok]: the status is in the range 200 to 299. *)
Definition ok (resp : response) : bool :=
  bool_decide (200 ≤ status resp ≤ 299)%N.

(** The [try] block of [loadWeather].  [fetched] is how the promise of
    [fetch("/api/weather")] settles; the statements after the last [await]
    run against the window as it is then. *)
Definition loadWeather_try (fetched : completion response) : M unit :=
  resp ← await fetched;
  if negb (ok resp) then mret tt
  else
    data ← await (json resp);
    el ← get_element_by_id "weather-chip";
    match el with
    | None => mret tt
    | Some el =>
        title ← await (get_title data);
        text ← await (template title);
        set_textContent el text
    end.

Definition loadWeather (fetched : completion response) : M unit :=
  try_catch (loadWeather_try fetched)
            (λ err, console_error "Weather fetch failed:" err).

End Weather.

(** [document.addEventListener("DOMContentLoaded", loadWeather)] *)
Definition script (ls : list listener) : list listener :=
  addEventListener OnDocument "DOMContentLoaded" LoadWeather ls.

End WeatherChip.

(** ** NewsCardNavigator *)

Module NewsCardNavigator.
Import Js Dom Run.

(** The click handler of a card; [card] is the element the handler closed
    over, as it is when the click arrives. *)
Definition card_onclick (card : element) : M unit :=
  let link := el_dataset card !! "url" in
  match link with
  | Some url => if truthy link then window_open url "_blank" else mret tt
  | None => mret tt
  end.

(** The [DOMContentLoaded] callback: one click listener per element the
    selector [.news-card] matches in a document of this mode. *)
Definition on_ready (mode : document_mode) (p : page) (ls : list listener)
    : list listener :=
  let cards := querySelectorAll_class mode "news-card" p in
  foldl (λ ls card, addEventListener (OnElement card) "click" (NewsCardClick card) ls)
        ls cards.

Definition script (ls : list listener) : list listener :=
  addEventListener OnDocument "DOMContentLoaded" NewsCardsReady ls.

End NewsCardNavigator.

(** ** CursorEffect *)

Module CursorEffect.
Import Js Dom.

Section Cursor.
Context {number : Type} `{!NumberToString number}.

(** The coordinates a [mousemove] event carries. *)
Record mouse_event := MouseEvent { pageX : number; pageY : number }.

(** The template literal [`${n}px`]. *)
Definition px (n : number) : string := number_to_string n +:+ "px".

(** The [mousemove] handler. *)
Definition onmousemove (e : mouse_event) (p : page) : page :=
  match getElementById "cursor-effect" p with
  | Some circle =>
      let p := update_element circle (with_style_left (px (pageX e))) p in
      update_element circle (with_style_top (px (pageY e))) p
  | None => p
  end.

End Cursor.

Definition script (ls : list listener) : list listener :=
  addEventListener OnDocument "mousemove" CursorMove ls.

End CursorEffect.

(** ** What a test of the page observes *)

Module Observe.
Import Js Dom.

(** The text, and the offsets, of the element [getElementById] finds. *)
Definition element_of (id : string) (p : page) : option element :=
  getElementById id p ≫= λ i, elements p !! i.

Definition text_of (id : string) (p : page) : option string :=
  textContent <$> element_of id p.

Definition left_of (id : string) (p : page) : option string :=
  style_left <$> element_of id p.

Definition top_of (id : string) (p : page) : option string :=
  style_top <$> element_of id p.

(** The theme attribute of the document element. *)
Definition theme_attribute (p : page) : option string :=
  root_dataset p !! "theme".

(** The pieces of a cookie string: the [name=value] pair first, then the
    attributes. *)
Definition cookie_pieces (cookie : string) : list string :=
  split_on (Ascii.ascii_of_nat 59) cookie.

Fixpoint strip_prefix (prefix s : string) : option string :=
  match prefix, s with
  | EmptyString, _ => Some s
  | String a prefix', String b s' =>
      if decide (a = b) then strip_prefix prefix' s' else None
  | String _ _, EmptyString => None
  end.

(** The value a cookie string gives to the cookie named [theme]. *)
Definition cookie_theme (cookie : string) : option string :=
  head (cookie_pieces cookie) ≫= strip_prefix "theme=".

Section Weather.
Context {number : Type}.

(** A fetch that fails: the promise of [fetch] rejects, the status is
    outside 200 to 299, or the body does not parse. *)
Definition fetch_fails (fetched : completion (@WeatherChip.response number)) : bool :=
  match fetched with
  | Throw _ => true
  | Normal resp =>
      negb (bool_decide (200 ≤ WeatherChip.status resp ≤ 299)%N)
      || match WeatherChip.json resp with
         | Throw _ => true
         | Normal _ => false
         end
  end.

(** A parsed body with a [title] field. *)
Definition has_title_field (body : value number) : bool :=
  match body with
  | Obj members => bool_decide (is_Some (own_property "title" members))
  | _ => false
  end.

End Weather.

(** [n] clicks on the toggle control, one after the other. *)
Definition toggle_clicks (n : nat) (p : page) : page :=
  Nat.iter n ThemeToggle.toggle_onclick p.

(** [n] clicks on one card: the window after the last of them. *)
Definition card_clicks (n : nat) (card : element) (w : window) : window :=
  Nat.iter n (λ w, (NewsCardNavigator.card_onclick card w).2) w.

(** A value that is neither an array nor an object. *)
Definition is_primitive {number : Type} (v : value number) : bool :=
  match v with
  | Arr _ | Obj _ => false
  | _ => true
  end.

End Observe.

(** * Properties *)

Import Js Dom Run Observe.

(** ** ThemeToggle *)

Section ThemeToggleFacts.
Import ThemeToggle.

Lemma next_of_dark_or_light c : next_of c = "dark" ∨ next_of c = "light".
Proof. unfold next_of. case_decide; auto. Qed.

Lemma current_unset p : theme_attribute p = None → current p = "dark".
Proof. unfold current, theme_attribute. by intros ->. Qed.

Lemma current_empty p : theme_attribute p = Some "" → current p = "dark".
Proof. unfold current, theme_attribute. by intros ->. Qed.

Lemma current_set p s : theme_attribute p = Some s → s ≠ "" → current p = s.
Proof.
  unfold current, theme_attribute. intros -> Hs. simpl.
  by case_decide.
Qed.

Lemma theme_after_click p :
  theme_attribute (toggle_onclick p) = Some (next p).
Proof. unfold theme_attribute, toggle_onclick, next. simpl. apply lookup_insert_eq. Qed.

Lemma cookie_after_click p :
  cookie_writes (toggle_onclick p) = cookie_writes p ++ [cookie_string (next p)].
Proof. reflexivity. Qed.

Lemma current_after_click p : current (toggle_onclick p) = next p.
Proof.
  apply current_set; [apply theme_after_click|].
  unfold next. by destruct (next_of_dark_or_light (current p)) as [-> | ->].
Qed.

Lemma next_after_click p : next (toggle_onclick p) = next_of (next p).
Proof. unfold next at 1. by rewrite current_after_click. Qed.

(** Without a theme attribute two clicks end on [dark]: the attribute does
    not go back to being unset. *)
Lemma toggle_twice_unset p :
  theme_attribute p = None →
  theme_attribute (toggle_onclick (toggle_onclick p)) = Some "dark".
Proof.
  intros Hp. rewrite theme_after_click, next_after_click.
  unfold next. by rewrite (current_unset p Hp).
Qed.

End ThemeToggleFacts.

(** C1 as stated fails: with the theme attribute unset the preference is
    taken to be [dark], and two clicks leave the attribute holding [dark],
    not unset as it was. *)
Lemma unset_theme_is_not_restored :
  let p := Page ∅ [] [] in
  theme_attribute p = None ∧
  ThemeToggle.current p = "dark" ∧
  theme_attribute (ThemeToggle.toggle_onclick (ThemeToggle.toggle_onclick p))
    = Some "dark" ∧
  ¬ (∀ q : page,
       theme_attribute (ThemeToggle.toggle_onclick (ThemeToggle.toggle_onclick q))
         = theme_attribute q).
Proof.
  intros p. split; [reflexivity|]. split; [reflexivity|]. split; [reflexivity|].
  intros Hall. specialize (Hall p).
  rewrite (toggle_twice_unset p eq_refl) in Hall. discriminate Hall.
Qed.

(** C1, amended.  When the theme attribute holds a theme preference, [dark]
    or [light], two clicks on the toggle bring the attribute back to the
    value it had.  When the attribute is unset or empty, the preference is
    taken to be [dark]: two clicks bring the preference back to [dark], and
    the attribute then holds [dark] instead of what it held. *)
Theorem toggle_twice_restores_set_theme (p : page) :
  (∀ s, theme_attribute p = Some s → s = "dark" ∨ s = "light" →
     theme_attribute (ThemeToggle.toggle_onclick (ThemeToggle.toggle_onclick p))
       = theme_attribute p) ∧
  (theme_attribute p = None ∨ theme_attribute p = Some "" →
     ThemeToggle.current p = "dark" ∧
     ThemeToggle.current (ThemeToggle.toggle_onclick (ThemeToggle.toggle_onclick p))
       = "dark" ∧
     theme_attribute (ThemeToggle.toggle_onclick (ThemeToggle.toggle_onclick p))
       = Some "dark").
Proof.
  split.
  - intros s Hp Hs. rewrite theme_after_click, next_after_click, Hp.
    unfold ThemeToggle.next.
    rewrite (current_set p s Hp) by (destruct Hs; by subst).
    destruct Hs; by subst.
  - intros Hp.
    assert (Hc : ThemeToggle.current p = "dark")
      by (destruct Hp; [by apply current_unset | by apply current_empty]).
    assert (Ha : theme_attribute
                   (ThemeToggle.toggle_onclick (ThemeToggle.toggle_onclick p))
                 = Some "dark").
    { rewrite theme_after_click, next_after_click.
      unfold ThemeToggle.next. by rewrite Hc. }
    split; [done|]. split; [|done].
    by apply current_set.
Qed.

Lemma toggle_twice_restores_set_theme_witness :
  let p := Page {["theme" := "light"]} ["theme=light"] [] in
  theme_attribute p = Some "light" ∧
  theme_attribute (ThemeToggle.toggle_onclick (ThemeToggle.toggle_onclick p))
    = Some "light".
Proof.
  intros p. split; [reflexivity|].
  apply (proj1 (toggle_twice_restores_set_theme p) "light"); [reflexivity|].
  right; reflexivity.
Defined.

(** C2.  A click writes exactly one cookie string,
    [theme=<value>;path=/;max-age=31536000;Secure;SameSite=Lax], whose
    <value> is the value the click gave to the theme attribute; read back
    piece by piece it carries [path=/], [max-age=31536000], [Secure] and
    [SameSite=Lax]. *)
Theorem toggle_cookie_string (p : page) :
  ∃ value : string,
    theme_attribute (ThemeToggle.toggle_onclick p) = Some value ∧
    cookie_writes (ThemeToggle.toggle_onclick p)
      = cookie_writes p
        ++ ["theme=" +:+ value +:+ ";path=/;max-age=31536000;Secure;SameSite=Lax"] ∧
    cookie_pieces
        ("theme=" +:+ value +:+ ";path=/;max-age=31536000;Secure;SameSite=Lax")
      = ["theme=" +:+ value; "path=/"; "max-age=31536000"; "Secure"; "SameSite=Lax"].
Proof.
  exists (ThemeToggle.next p). split; [apply theme_after_click|].
  split; [apply cookie_after_click|].
  unfold ThemeToggle.next.
  by destruct (next_of_dark_or_light (ThemeToggle.current p)) as [-> | ->].
Qed.

(** C6.  With the theme attribute unset, the preference read by the click
    is [dark], and the click writes [light] to the attribute and to the
    cookie. *)
Theorem first_toggle_yields_light (p : page) :
  theme_attribute p = None →
  ThemeToggle.current p = "dark" ∧
  theme_attribute (ThemeToggle.toggle_onclick p) = Some "light" ∧
  cookie_writes (ThemeToggle.toggle_onclick p)
    = cookie_writes p ++ ["theme=light;path=/;max-age=31536000;Secure;SameSite=Lax"] ∧
  cookie_theme "theme=light;path=/;max-age=31536000;Secure;SameSite=Lax" = Some "light".
Proof.
  intros Hp. pose proof (current_unset p Hp) as Hc.
  split; [done|]. split; [|split; [|done]].
  - rewrite theme_after_click. unfold ThemeToggle.next. by rewrite Hc.
  - rewrite cookie_after_click. unfold ThemeToggle.next. by rewrite Hc.
Qed.

Lemma first_toggle_yields_light_witness :
  let p := Page ∅ [] [] in
  theme_attribute p = None ∧
  theme_attribute (ThemeToggle.toggle_onclick p) = Some "light" ∧
  cookie_writes (ThemeToggle.toggle_onclick p)
    = ["theme=light;path=/;max-age=31536000;Secure;SameSite=Lax"].
Proof.
  intros p. split; [reflexivity|].
  destruct (first_toggle_yields_light p) as (_ & Ha & Hc & _); [reflexivity|].
  split; [exact Ha | exact Hc].
Defined.

(** C8 as stated fails: an empty theme attribute is a prior value other
    than [dark], and the click maps it to [light]. *)
Lemma empty_theme_maps_to_light :
  let p := Page {["theme" := ""]} [] [] in
  theme_attribute p = Some "" ∧
  theme_attribute (ThemeToggle.toggle_onclick p) = Some "light" ∧
  ¬ (∀ (q : page) (s : string),
       theme_attribute q = Some s → s ≠ "dark" →
       theme_attribute (ThemeToggle.toggle_onclick q) = Some "dark").
Proof.
  intros p. split; [reflexivity|]. split; [reflexivity|].
  intros Hall. specialize (Hall p "" eq_refl).
  assert (Hne : "" ≠ "dark") by discriminate.
  specialize (Hall Hne). vm_compute in Hall. discriminate Hall.
Qed.

(** C8, amended.  Whatever the theme attribute held before the click, the
    value written is [dark] or [light], the attribute and the cookie get
    the same value, and every prior value that is neither empty nor the
    exact string [dark] maps to [dark]; an unset or empty attribute counts
    as [dark] and maps to [light]. *)
Theorem toggle_writes_dark_or_light (p : page) :
  ∃ value : string,
    (value = "dark" ∨ value = "light") ∧
    theme_attribute (ThemeToggle.toggle_onclick p) = Some value ∧
    (∃ cookie, cookie_writes (ThemeToggle.toggle_onclick p) = cookie_writes p ++ [cookie]
               ∧ cookie_theme cookie = Some value) ∧
    (∀ s, theme_attribute p = Some s → s ≠ "" → s ≠ "dark" → value = "dark") ∧
    (theme_attribute p = Some "dark" → value = "light") ∧
    (theme_attribute p = None ∨ theme_attribute p = Some "" → value = "light").
Proof.
  exists (ThemeToggle.next p).
  split; [apply next_of_dark_or_light|].
  split; [apply theme_after_click|].
  split.
  { exists (ThemeToggle.cookie_string (ThemeToggle.next p)).
    split; [apply cookie_after_click|]. unfold ThemeToggle.next.
    by destruct (next_of_dark_or_light (ThemeToggle.current p)) as [-> | ->]. }
  unfold ThemeToggle.next. split; [|split].
  - intros s Hs Hne Hd. rewrite (current_set p s Hs Hne).
    unfold ThemeToggle.next_of. by case_decide.
  - intros Hs. by rewrite (current_set p "dark" Hs).
  - intros [Hs | Hs]; [rewrite (current_unset p Hs) | rewrite (current_empty p Hs)]; done.
Qed.

Lemma toggle_writes_dark_or_light_witness :
  let p := Page {["theme" := "solarized"]} [] [] in
  theme_attribute p = Some "solarized" ∧
  theme_attribute (ThemeToggle.toggle_onclick p) = Some "dark".
Proof.
  intros p. split; [reflexivity|].
  destruct (toggle_writes_dark_or_light p) as (v & _ & Ha & _ & Hd & _).
  rewrite Ha. f_equal. apply (Hd "solarized"); [reflexivity|discriminate|discriminate].
Defined.

(** ** Looking elements up and updating them *)

Section DomFacts.

Lemma list_find_alter_id (id : string) (f : element → element) (l : list element) (i : nat) :
  (∀ e, el_id (f e) = el_id e) →
  fst <$> list_find (λ e, el_id e = Some id) (alter f i l)
    = fst <$> list_find (λ e, el_id e = Some id) l.
Proof.
  intros Hf. revert i. induction l as [|x l IH]; intros i; [done|].
  destruct i as [|i]; simpl.
  - rewrite Hf. by case_decide.
  - case_decide; [done|].
    specialize (IH i). change (list_alter f i l) with (alter f i l).
    destruct (list_find _ (alter f i l)) as [[]|], (list_find _ l) as [[]|];
      simplify_eq/=; done.
Qed.

Lemma getElementById_update id i f p :
  (∀ e, el_id (f e) = el_id e) →
  getElementById id (update_element i f p) = getElementById id p.
Proof. intros Hf. unfold getElementById. simpl. by apply list_find_alter_id. Qed.

Lemma getElementById_lookup id p i :
  getElementById id p = Some i →
  ∃ e, elements p !! i = Some e ∧ el_id e = Some id.
Proof.
  unfold getElementById. intros Hfind.
  destruct (list_find _ (elements p)) as [[j e]|] eqn:Hj; simplify_eq/=.
  apply list_find_Some in Hj as (Hl & Hid & _). eauto.
Qed.

Lemma element_of_update id i f p :
  (∀ e, el_id (f e) = el_id e) →
  getElementById id p = Some i →
  element_of id (update_element i f p) = f <$> element_of id p.
Proof.
  intros Hf Hi. unfold element_of.
  rewrite (getElementById_update id i f p Hf), Hi. simpl.
  apply list_lookup_alter_eq.
Qed.

Lemma element_of_is_Some id p :
  is_Some (getElementById id p) → is_Some (element_of id p).
Proof.
  intros [i Hi]. destruct (getElementById_lookup id p i Hi) as (e & He & _).
  unfold element_of. rewrite Hi. simpl. eauto.
Qed.

End DomFacts.

(** ** Attaching the handlers *)

Section Listeners.

(** Guard and return: without a toggle control no handler is attached. *)
Lemma theme_script_without_toggle p ls :
  getElementById "theme-toggle" p = None → ThemeToggle.script p ls = ls.
Proof. unfold ThemeToggle.script. by intros ->. Qed.

Lemma theme_script_with_toggle p ls toggle :
  getElementById "theme-toggle" p = Some toggle →
  ThemeToggle.script p ls = ls ++ [Listener (OnElement toggle) "click" ThemeToggleClick].
Proof. unfold ThemeToggle.script. by intros ->. Qed.

(** Every card gets one click listener, in document order. *)
Lemma news_on_ready_listeners mode p ls :
  NewsCardNavigator.on_ready mode p ls
    = ls ++ ((λ card, Listener (OnElement card) "click" (NewsCardClick card))
             <$> querySelectorAll_class mode "news-card" p).
Proof.
  unfold NewsCardNavigator.on_ready.
  generalize (querySelectorAll_class mode "news-card" p) as cards.
  intros cards. revert ls.
  induction cards as [|card cards IH]; intros ls; simpl.
  - by rewrite app_nil_r.
  - rewrite IH. unfold addEventListener. by rewrite <- app_assoc.
Qed.

End Listeners.

(** ** NewsCardNavigator *)

(** C3 as stated fails: a card whose [data-url] attribute is present and
    empty opens nothing. *)
Lemma present_empty_url_opens_nothing :
  let card := Element None ["news-card"] {["url" := ""]} "Headline" "" "" in
  let w := Window (Page ∅ [] [card]) [] [] in
  is_Some (el_dataset card !! "url") ∧
  opened (NewsCardNavigator.card_onclick card w).2 = [] ∧
  ¬ (∀ url, el_dataset card !! "url" = Some url →
            opened (NewsCardNavigator.card_onclick card w).2 = opened w ++ [(url, "_blank")]).
Proof.
  intros card w. split; [by eexists|]. split; [reflexivity|].
  intros Hall. specialize (Hall "" eq_refl). vm_compute in Hall. discriminate Hall.
Qed.

(** C3, amended.  A click on a card whose [data-url] attribute is present
    and not empty makes exactly one open call, with that URL and the target
    [_blank], and changes nothing else; a click on a card without the
    attribute makes no open call. *)
Theorem card_click_opens_url (card : element) (w : window) :
  (∀ url, el_dataset card !! "url" = Some url → url ≠ "" →
     NewsCardNavigator.card_onclick card w
       = (Normal (), Window (document w) (opened w ++ [(url, "_blank")]) (console_errors w))) ∧
  (el_dataset card !! "url" = None →
     NewsCardNavigator.card_onclick card w = (Normal (), w)).
Proof.
  unfold NewsCardNavigator.card_onclick. split.
  - intros url -> Hne. simpl. by case_decide.
  - by intros ->.
Qed.

Lemma card_click_opens_url_witness :
  let card := Element None ["news-card"] {["url" := "https://example.com"]} "" "" "" in
  let w := Window (Page ∅ [] [card]) [] [] in
  el_dataset card !! "url" = Some "https://example.com" ∧
  opened (NewsCardNavigator.card_onclick card w).2 = [("https://example.com", "_blank")].
Proof.
  intros card w. split; [reflexivity|].
  rewrite (proj1 (card_click_opens_url card w) "https://example.com");
    [reflexivity|reflexivity|discriminate].
Defined.

(** C10.  A click on a card whose [data-url] attribute is present but
    empty makes no open call and changes nothing: the handler tests the
    value for truthiness. *)
Theorem empty_url_card_is_inert (card : element) (w : window) :
  el_dataset card !! "url" = Some "" →
  truthy (el_dataset card !! "url") = false ∧
  NewsCardNavigator.card_onclick card w = (Normal (), w).
Proof.
  intros Hurl. unfold NewsCardNavigator.card_onclick. by rewrite Hurl.
Qed.

Lemma empty_url_card_is_inert_witness :
  let card := Element None ["news-card"] {["url" := ""]} "" "" "" in
  let w := Window (Page ∅ [] [card]) [("https://example.com", "_blank")] [] in
  el_dataset card !! "url" = Some "" ∧
  opened (NewsCardNavigator.card_onclick card w).2 = opened w.
Proof.
  intros card w. split; [reflexivity|].
  by rewrite (proj2 (empty_url_card_is_inert card w eq_refl)).
Defined.

(** ** CursorEffect *)

(** C7.  On a pointer move to page coordinates [(x, y)], when the element
    with id [cursor-effect] exists its left offset becomes [<x>px] and its
    top offset [<y>px]; when it does not exist the page is left as it
    was. *)
Theorem cursor_follows_pointer {number : Type} `{!NumberToString number}
    (e : @CursorEffect.mouse_event number) (p : page) :
  (is_Some (getElementById "cursor-effect" p) →
     left_of "cursor-effect" (CursorEffect.onmousemove e p)
       = Some (number_to_string (CursorEffect.pageX e) +:+ "px") ∧
     top_of "cursor-effect" (CursorEffect.onmousemove e p)
       = Some (number_to_string (CursorEffect.pageY e) +:+ "px")) ∧
  (getElementById "cursor-effect" p = None → CursorEffect.onmousemove e p = p).
Proof.
  unfold CursorEffect.onmousemove. split.
  - intros [circle Hc]. rewrite Hc.
    destruct (element_of_is_Some "cursor-effect" p) as [el Hel]; [by eexists|].
    unfold left_of, top_of.
    rewrite element_of_update; [|done|by rewrite getElementById_update].
    rewrite element_of_update by done.
    by rewrite Hel.
  - by intros ->.
Qed.

Lemma cursor_follows_pointer_witness :
  let circle := Element (Some "cursor-effect") [] ∅ "" "0px" "0px" in
  let p := Page ∅ [] [Element (Some "weather-chip") [] ∅ "" "" ""; circle] in
  let e := CursorEffect.MouseEvent 120%Z 340%Z in
  is_Some (getElementById "cursor-effect" p) ∧
  left_of "cursor-effect" (CursorEffect.onmousemove e p) = Some "120px" ∧
  top_of "cursor-effect" (CursorEffect.onmousemove e p) = Some "340px".
Proof.
  intros circle p e. split; [by eexists|].
  destruct (proj1 (cursor_follows_pointer e p)) as [Hleft Htop]; [by eexists|].
  split; [rewrite Hleft | rewrite Htop]; vm_compute; reflexivity.
Defined.

(** ** WeatherChip *)

Section WeatherFacts.
Context {number : Type} `{!NumberToString number}.
Import WeatherChip.

Implicit Types (fetched : completion (@response number)) (w : window).

(** The [catch] clause only logs, so [loadWeather] always ends normally:
    its promise never rejects. *)
Lemma loadWeather_never_throws fetched w :
  (loadWeather fetched w).1 = Normal ().
Proof.
  unfold loadWeather, try_catch.
  by destruct (loadWeather_try fetched w) as [[[]|err] w'].
Qed.

Lemma loadWeather_rejected err w :
  loadWeather (Throw err) w
    = (Normal (), Window (document w) (opened w)
                         (console_errors w ++ [("Weather fetch failed:", err)])).
Proof. reflexivity. Qed.

Lemma loadWeather_not_ok resp w :
  ok resp = false → loadWeather (Normal resp) w = (Normal (), w).
Proof.
  intros Hok. unfold loadWeather, try_catch, loadWeather_try, await, mbind, M_bind.
  by rewrite Hok.
Qed.

Lemma loadWeather_unparsed st err w :
  ok (@Response number st (Throw err)) = true →
  loadWeather (Normal (@Response number st (Throw err))) w
    = (Normal (), Window (document w) (opened w)
                         (console_errors w ++ [("Weather fetch failed:", err)])).
Proof.
  intros Hok. unfold loadWeather, try_catch, loadWeather_try, await, mbind, M_bind.
  by rewrite Hok.
Qed.

(** The path that reaches the assignment to [textContent]. *)
Lemma loadWeather_renders st body w el title text :
  (200 ≤ st ≤ 299)%N →
  getElementById "weather-chip" (document w) = Some el →
  get_title body = Normal title →
  template title = Normal text →
  loadWeather (Normal (Response st (Normal body))) w
    = (Normal (),
       with_document (update_element el (with_textContent text) (document w)) w).
Proof.
  intros Hst Hel Htitle Htext.
  unfold loadWeather, try_catch, loadWeather_try, await, get_element_by_id,
    set_textContent, mbind, M_bind, ok.
  simpl. rewrite bool_decide_eq_true_2 by done. simpl.
  by rewrite Hel, Htitle, Htext.
Qed.

(** A body that is [null] makes the property read throw; the [catch] clause
    logs and the text stays. *)
Lemma loadWeather_null_body st w el :
  (200 ≤ st ≤ 299)%N →
  getElementById "weather-chip" (document w) = Some el →
  document (loadWeather (Normal (Response st (Normal (@Null number)))) w).2 = document w.
Proof.
  intros Hst Hel.
  unfold loadWeather, try_catch, loadWeather_try, await, get_element_by_id,
    set_textContent, mbind, M_bind, ok.
  simpl. rewrite bool_decide_eq_true_2 by done. simpl.
  by rewrite Hel.
Qed.

Lemma text_of_rendered w el text :
  getElementById "weather-chip" (document w) = Some el →
  text_of "weather-chip" (update_element el (with_textContent text) (document w))
    = Some text.
Proof.
  intros Hel. unfold text_of.
  rewrite element_of_update by done.
  destruct (element_of_is_Some "weather-chip" (document w)) as [e ->]; [by eexists|].
  done.
Qed.

(** Any string title is written as it is. *)
Lemma string_title_is_rendered st members s w :
  (200 ≤ st ≤ 299)%N →
  own_property "title" members = Some (Str s) →
  is_Some (getElementById "weather-chip" (document w)) →
  text_of "weather-chip"
    (document (loadWeather (Normal (Response st (Normal (Obj members)))) w).2) = Some s.
Proof.
  intros Hst Hs [el Hel].
  rewrite (loadWeather_renders st (Obj members) w el (Some (Str s)) s); try done.
  - by apply text_of_rendered.
  - simpl. by rewrite Hs.
Qed.

End WeatherFacts.

(** C4.  When the fetch fails, by a rejected [fetch], a status outside 200
    to 299 or a body that does not parse, [loadWeather] ends normally,
    nothing reaching its caller, and the document, the text of the display
    element included, and the open calls are as they were. *)
Theorem failed_fetch_changes_nothing {number : Type} `{!NumberToString number}
    (fetched : completion (@WeatherChip.response number)) (w : window) :
  fetch_fails fetched = true →
  (WeatherChip.loadWeather fetched w).1 = Normal () ∧
  document (WeatherChip.loadWeather fetched w).2 = document w ∧
  text_of "weather-chip" (document (WeatherChip.loadWeather fetched w).2)
    = text_of "weather-chip" (document w) ∧
  opened (WeatherChip.loadWeather fetched w).2 = opened w.
Proof.
  intros Hfail. split; [apply loadWeather_never_throws|].
  assert (document (WeatherChip.loadWeather fetched w).2 = document w
          ∧ opened (WeatherChip.loadWeather fetched w).2 = opened w) as [Hdoc Hopen].
  { destruct fetched as [[st body]|err]; [|by rewrite loadWeather_rejected].
    destruct (WeatherChip.ok (WeatherChip.Response st body)) eqn:Hok;
      [|by rewrite loadWeather_not_ok].
    destruct body as [body|err]; [|by rewrite loadWeather_unparsed].
    unfold fetch_fails, WeatherChip.ok in *. simpl in *.
    rewrite Hok in Hfail. discriminate Hfail. }
  by rewrite Hdoc.
Qed.

Lemma failed_fetch_changes_nothing_witness :
  let chip := Element (Some "weather-chip") [] ∅ "Loading" "" "" in
  let w := Window (Page ∅ [] [chip]) [] [] in
  let fetched := Normal (WeatherChip.Response 503 (Normal (Obj [("title", Str "Sunny")]))) in
  @fetch_fails Z fetched = true ∧
  text_of "weather-chip" (document (WeatherChip.loadWeather fetched w).2) = Some "Loading".
Proof.
  intros chip w fetched. split; [reflexivity|].
  destruct (failed_fetch_changes_nothing fetched w) as (_ & _ & Htext & _);
    [reflexivity|].
  rewrite Htext. reflexivity.
Defined.

(** C5.  A response with a status from 200 to 299 and the body
    [{"title":"Sunny"}] sets the text of the display element, when the page
    has one, to [Sunny]. *)
Theorem sunny_title_is_rendered {number : Type} `{!NumberToString number}
    (st : N) (w : window) :
  (200 ≤ st ≤ 299)%N →
  is_Some (getElementById "weather-chip" (document w)) →
  let sunny : value number := Obj [("title", Str "Sunny")] in
  let after := WeatherChip.loadWeather (Normal (WeatherChip.Response st (Normal sunny))) w in
  after.1 = Normal () ∧
  text_of "weather-chip" (document after.2) = Some "Sunny".
Proof.
  intros Hst Hel. simpl. split; [apply loadWeather_never_throws|].
  by apply string_title_is_rendered.
Qed.

Lemma sunny_title_is_rendered_witness :
  let chip := Element (Some "weather-chip") [] ∅ "Loading" "" "" in
  let w := Window (Page ∅ [] [chip]) [] [] in
  let sunny : value Z := Obj [("title", Str "Sunny")] in
  (200 ≤ 200 ≤ 299)%N ∧
  text_of "weather-chip"
    (document (WeatherChip.loadWeather
                 (Normal (WeatherChip.Response 200 (Normal sunny))) w).2) = Some "Sunny".
Proof.
  intros chip w sunny. split; [lia|].
  apply (sunny_title_is_rendered (number:=Z) 200 w); [lia | by eexists].
Defined.

(** C9 as stated fails: the body [null] has no [title] field, yet the text
    of the display element stays as it was and an error is logged. *)
Lemma null_body_leaves_text :
  let chip := Element (Some "weather-chip") [] ∅ "Loading" "" "" in
  let w := Window (Page ∅ [] [chip]) [] [] in
  let after := WeatherChip.loadWeather
                 (Normal (WeatherChip.Response 200 (Normal (@Null Z)))) w in
  has_title_field (@Null Z) = false ∧
  text_of "weather-chip" (document after.2) = Some "Loading" ∧
  text_of "weather-chip" (document after.2) ≠ Some "undefined" ∧
  length (console_errors after.2) = 1.
Proof. intros chip w after. vm_compute. repeat split; discriminate. Qed.

(** C9, amended.  A response with a status from 200 to 299 whose parsed
    body is not [null] and has no [title] field sets the text of the
    display element, when the page has one, to the string [undefined];
    nothing is logged. *)
Theorem missing_title_renders_undefined {number : Type} `{!NumberToString number}
    (st : N) (body : value number) (w : window) :
  (200 ≤ st ≤ 299)%N →
  body ≠ Null →
  has_title_field body = false →
  is_Some (getElementById "weather-chip" (document w)) →
  let after := WeatherChip.loadWeather (Normal (WeatherChip.Response st (Normal body))) w in
  after.1 = Normal () ∧
  text_of "weather-chip" (document after.2) = Some "undefined" ∧
  console_errors after.2 = console_errors w.
Proof.
  intros Hst Hnull Hfield [el Hel]. simpl.
  split; [apply loadWeather_never_throws|].
  rewrite (loadWeather_renders st body w el None "undefined"); try done.
  - split; [by apply text_of_rendered | done].
  - destruct body as [| | | | |members]; try done. simpl in *.
    destruct (own_property "title" members); [|done].
    rewrite bool_decide_eq_true_2 in Hfield by eauto. discriminate Hfield.
Qed.

Lemma missing_title_renders_undefined_witness :
  let chip := Element (Some "weather-chip") [] ∅ "Loading" "" "" in
  let w := Window (Page ∅ [] [chip]) [] [] in
  let body : value Z := Obj [("summary", Str "Sunny"); ("temp", Num 21%Z)] in
  body ≠ Null ∧ has_title_field body = false ∧
  text_of "weather-chip"
    (document (WeatherChip.loadWeather
                 (Normal (WeatherChip.Response 200 (Normal body))) w).2) = Some "undefined".
Proof.
  intros chip w body. split; [discriminate|]. split; [reflexivity|].
  apply (missing_title_renders_undefined 200 body w);
    [lia | discriminate | reflexivity | by eexists].
Defined.

(** * Further properties of the handlers *)

(** ** ThemeToggle: sequences of clicks *)

Section ToggleSequences.
Import ThemeToggle.

Lemma toggle_clicks_S n p :
  toggle_clicks (S n) p = toggle_onclick (toggle_clicks n p).
Proof. reflexivity. Qed.

Lemma theme_after_two_clicks p :
  theme_attribute (toggle_onclick (toggle_onclick p)) = Some (next_of (next p)).
Proof. by rewrite theme_after_click, next_after_click. Qed.

Lemma cookie_string_pieces c :
  c = "dark" ∨ c = "light" →
  cookie_theme (cookie_string c) = Some c ∧
  cookie_pieces (cookie_string c)
    = ["theme=" +:+ c; "path=/"; "max-age=31536000"; "Secure"; "SameSite=Lax"].
Proof. by intros [-> | ->]. Qed.

End ToggleSequences.

(** From the first click on, the theme attribute alternates: whatever the
    attribute held at the start, a click and two more leave it where the
    one click did. *)
Theorem theme_alternates_after_first_click (n : nat) (p : page) :
  theme_attribute (toggle_clicks (S (S (S n))) p)
    = theme_attribute (toggle_clicks (S n) p) ∧
  theme_attribute (toggle_clicks (S (S n)) p)
    ≠ theme_attribute (toggle_clicks (S n) p).
Proof.
  rewrite !toggle_clicks_S. set (q := toggle_clicks n p).
  rewrite !theme_after_click, !next_after_click. unfold ThemeToggle.next.
  destruct (next_of_dark_or_light (ThemeToggle.current q)) as [-> | ->];
    (split; [done | discriminate]).
Qed.

(** Two clicks do not restore every attribute, they normalise it: an
    attribute that is unset, empty or [dark] ends as [dark], and every
    other string ends as [light]. *)
Theorem two_clicks_normalise_theme (p : page) :
  (theme_attribute p = None ∨ theme_attribute p = Some "" ∨
   theme_attribute p = Some "dark" →
     theme_attribute (ThemeToggle.toggle_onclick (ThemeToggle.toggle_onclick p))
       = Some "dark") ∧
  (∀ s, theme_attribute p = Some s → s ≠ "" → s ≠ "dark" →
     theme_attribute (ThemeToggle.toggle_onclick (ThemeToggle.toggle_onclick p))
       = Some "light").
Proof.
  rewrite theme_after_two_clicks. unfold ThemeToggle.next. split.
  - intros [Hp | [Hp | Hp]].
    + by rewrite (current_unset p Hp).
    + by rewrite (current_empty p Hp).
    + by rewrite (current_set p "dark" Hp).
  - intros s Hp Hne Hd. rewrite (current_set p s Hp Hne).
    unfold ThemeToggle.next_of at 2. by case_decide.
Qed.

Lemma two_clicks_normalise_theme_witness :
  let p := Page {["theme" := "sepia"]} [] [] in
  theme_attribute p = Some "sepia" ∧
  theme_attribute (ThemeToggle.toggle_onclick (ThemeToggle.toggle_onclick p))
    = Some "light".
Proof.
  intros p. split; [reflexivity|].
  apply (proj2 (two_clicks_normalise_theme p) "sepia"); [reflexivity|discriminate|discriminate].
Defined.

(** The cookie writes only grow: [n] clicks add exactly [n] cookie strings
    after those already written, and each of them names the theme [dark]
    or [light] and carries [path=/], [max-age=31536000], [Secure] and
    [SameSite=Lax]. *)
Theorem clicks_append_theme_cookies (n : nat) (p : page) :
  ∃ written : list string,
    cookie_writes (toggle_clicks n p) = cookie_writes p ++ written ∧
    length written = n ∧
    Forall (λ cookie,
              (cookie_theme cookie = Some "dark" ∨ cookie_theme cookie = Some "light") ∧
              tail (cookie_pieces cookie)
                = ["path=/"; "max-age=31536000"; "Secure"; "SameSite=Lax"])
           written.
Proof.
  induction n as [|n (written & Hlog & Hlen & Hall)].
  - exists []. by rewrite app_nil_r.
  - exists (written ++ [ThemeToggle.cookie_string (ThemeToggle.next (toggle_clicks n p))]).
    rewrite toggle_clicks_S, cookie_after_click, Hlog, <- app_assoc.
    split; [done|]. split; [rewrite length_app; simpl; lia|].
    apply Forall_app. split; [done|]. apply Forall_singleton.
    unfold ThemeToggle.next.
    destruct (cookie_string_pieces (ThemeToggle.next_of (ThemeToggle.current (toggle_clicks n p))))
      as [Htheme Hpieces]; [apply next_of_dark_or_light|].
    rewrite Htheme, Hpieces. split; [|done].
    destruct (next_of_dark_or_light (ThemeToggle.current (toggle_clicks n p))) as [-> | ->];
      auto.
Qed.

(** Clicks on the toggle touch the theme attribute and the cookie only: the
    elements of the document and every other attribute of the document
    element stay as they are. *)
Theorem clicks_leave_rest_of_page (n : nat) (p : page) :
  elements (toggle_clicks n p) = elements p ∧
  ∀ key, key ≠ "theme" → root_dataset (toggle_clicks n p) !! key = root_dataset p !! key.
Proof.
  induction n as [|n [IHel IHds]]; [done|].
  rewrite toggle_clicks_S. split; [exact IHel|].
  intros key Hkey. rewrite <- (IHds key Hkey).
  unfold ThemeToggle.toggle_onclick. simpl. by rewrite lookup_insert_ne.
Qed.

Lemma clicks_leave_rest_of_page_witness :
  let p := Page {["theme" := "dark"; "lang" := "en"]} [] [] in
  "lang" ≠ "theme" ∧ root_dataset (toggle_clicks 3 p) !! "lang" = Some "en".
Proof.
  intros p. split; [discriminate|].
  rewrite (proj2 (clicks_leave_rest_of_page 3 p) "lang"); [reflexivity|discriminate].
Defined.

(** ** Which elements the scripts pick *)

Section Selection.

Lemma getElementById_None id p :
  getElementById id p = None ↔ Forall (λ e, el_id e ≠ Some id) (elements p).
Proof.
  unfold getElementById. rewrite fmap_None. apply list_find_None.
Qed.

Lemma getElementById_first id p i :
  getElementById id p = Some i ↔
  (∃ e, elements p !! i = Some e ∧ el_id e = Some id) ∧
  ∀ j e, elements p !! j = Some e → j < i → el_id e ≠ Some id.
Proof.
  unfold getElementById. split.
  - intros Hfind.
    destruct (list_find _ (elements p)) as [[j e]|] eqn:Hj; simplify_eq/=.
    apply list_find_Some in Hj as (Hl & Hid & Hfirst). eauto.
  - intros [(e & Hl & Hid) Hfirst].
    by rewrite (proj2 (list_find_Some (λ e, el_id e = Some id) (elements p) i e)).
Qed.

Lemma querySelectorAll_class_spec mode cls p i :
  i ∈ querySelectorAll_class mode cls p ↔
  ∃ e, elements p !! i = Some e ∧ class_selector_matches mode cls (el_class e) = true.
Proof.
  unfold querySelectorAll_class. rewrite list_elem_of_fmap. split.
  - intros ([j e] & -> & Hin). apply list_elem_of_filter in Hin as [Hcls Hin].
    apply list_elem_of_lookup in Hin as [k Hk].
    rewrite list_lookup_imap in Hk.
    destruct (elements p !! k) as [e'|] eqn:Hek; simplify_eq/=. eauto.
  - intros (e & He & Hcls). exists (i, e). split; [done|].
    apply list_elem_of_filter. split; [done|].
    apply list_elem_of_lookup. exists i.
    by rewrite list_lookup_imap, He.
Qed.

Lemma querySelectorAll_class_NoDup mode cls p :
  NoDup (querySelectorAll_class mode cls p).
Proof.
  unfold querySelectorAll_class.
  eapply sublist_NoDup; [|apply fmap_sublist, sublist_filter].
  apply NoDup_alt. intros i j x Hi Hj.
  rewrite list_lookup_fmap, list_lookup_imap in Hi, Hj.
  destruct (elements p !! i), (elements p !! j); simplify_eq/=. done.
Qed.

End Selection.

(** The theme script guards on its control: on a page without an element of
    id [theme-toggle] it attaches nothing; otherwise it attaches exactly
    one click listener, to the first element of that id, after the
    listeners already there. *)
Theorem theme_script_guard (p : page) (ls : list listener) :
  (Forall (λ e, el_id e ≠ Some "theme-toggle") (elements p) →
     ThemeToggle.script p ls = ls) ∧
  (∀ e, e ∈ elements p → el_id e = Some "theme-toggle" →
     ∃ toggle first,
       ThemeToggle.script p ls = ls ++ [Listener (OnElement toggle) "click" ThemeToggleClick] ∧
       elements p !! toggle = Some first ∧ el_id first = Some "theme-toggle" ∧
       ∀ j e', elements p !! j = Some e' → j < toggle → el_id e' ≠ Some "theme-toggle").
Proof.
  split.
  - intros Hnone. apply theme_script_without_toggle. by apply getElementById_None.
  - intros e He Hid.
    destruct (getElementById "theme-toggle" p) as [toggle|] eqn:Hget.
    + pose proof (proj1 (getElementById_first _ _ _) Hget) as [(first & Hl & Hf) Hfirst].
      exists toggle, first. split; [by apply theme_script_with_toggle|]. done.
    + apply getElementById_None in Hget.
      rewrite Forall_forall in Hget. by destruct (Hget e He).
Qed.

Lemma theme_script_guard_witness :
  let p := Page ∅ [] [Element (Some "weather-chip") [] ∅ "" "" ""] in
  Forall (λ e, el_id e ≠ Some "theme-toggle") (elements p) ∧
  ThemeToggle.script p [] = [].
Proof.
  intros p.
  assert (Hnone : Forall (λ e, el_id e ≠ Some "theme-toggle") (elements p)).
  { repeat constructor. discriminate. }
  split; [exact Hnone|].
  exact (proj1 (theme_script_guard p []) Hnone).
Defined.

(** ** NewsCardNavigator: listeners and repeated clicks *)

Lemma class_selector_matches_spec mode classes :
  class_selector_matches mode "news-card" classes = true ↔
  ∃ name, name ∈ classes ∧
          match mode with
          | NoQuirks => name = "news-card"
          | Quirks => ascii_lowercase name = "news-card"
          end.
Proof.
  destruct mode; simpl; rewrite bool_decide_eq_true.
  - split; [by eauto | by intros (name & Hin & ->)].
  - rewrite list_elem_of_fmap. split.
    + intros (name & Heq & Hin). by eauto.
    + intros (name & Hin & Heq). by eauto.
Qed.

(** When the document is ready, an element gets a click listener exactly
    when the selector [.news-card] matches it, and it gets only one; the
    listeners attached before are kept in front.  The selector matches an
    element that has a class named [news-card]: named exactly so in a
    no-quirks document, and named so up to the case of ASCII letters in a
    quirks-mode document. *)
Theorem news_cards_get_one_listener (mode : document_mode) (p : page)
    (ls : list listener) :
  NewsCardNavigator.on_ready mode p ls = ls ++ NewsCardNavigator.on_ready mode p [] ∧
  NoDup (NewsCardNavigator.on_ready mode p []) ∧
  ∀ l, l ∈ NewsCardNavigator.on_ready mode p [] ↔
       ∃ card e name,
         l = Listener (OnElement card) "click" (NewsCardClick card) ∧
         elements p !! card = Some e ∧ name ∈ el_class e ∧
         match mode with
         | NoQuirks => name = "news-card"
         | Quirks => ascii_lowercase name = "news-card"
         end.
Proof.
  rewrite !news_on_ready_listeners. simpl. split; [done|]. split.
  - apply NoDup_fmap_2_strong; [|apply querySelectorAll_class_NoDup].
    by intros x y _ _ [= ->].
  - intros l. rewrite list_elem_of_fmap. split.
    + intros (card & -> & Hin).
      apply querySelectorAll_class_spec in Hin as (e & He & Hc).
      apply class_selector_matches_spec in Hc as (name & Hin & Hname).
      exists card, e, name. done.
    + intros (card & e & name & -> & He & Hin & Hname). exists card. split; [done|].
      apply querySelectorAll_class_spec. exists e. split; [done|].
      apply class_selector_matches_spec. eauto.
Qed.

Lemma news_cards_get_one_listener_witness :
  let card := Element None ["tile"; "News-Card"] {["url" := "https://example.com"]} "" "" "" in
  let p := Page ∅ [] [Element (Some "weather-chip") [] ∅ "" "" ""; card] in
  Listener (OnElement 1) "click" (NewsCardClick 1) ∈ NewsCardNavigator.on_ready Quirks p [] ∧
  NewsCardNavigator.on_ready NoQuirks p [] = [].
Proof.
  intros card p. split; [|reflexivity].
  apply (proj2 (proj2 (news_cards_get_one_listener Quirks p []))).
  exists 1, card, "News-Card". split; [reflexivity|]. split; [reflexivity|].
  split; [|reflexivity]. apply list_elem_of_In. simpl. auto.
Defined.

Section CardClicks.
Import NewsCardNavigator.

Lemma card_clicks_S n card w :
  card_clicks (S n) card w = (card_onclick card (card_clicks n card w)).2.
Proof. reflexivity. Qed.

Lemma card_onclick_opens card w url :
  el_dataset card !! "url" = Some url → url ≠ "" →
  (card_onclick card w).2
    = Window (document w) (opened w ++ [(url, "_blank")]) (console_errors w).
Proof. unfold card_onclick. intros -> Hne. simpl. by case_decide. Qed.

Lemma card_onclick_inert card w :
  truthy (el_dataset card !! "url") = false → (card_onclick card w).2 = w.
Proof.
  unfold card_onclick. intros Hfalsy.
  destruct (el_dataset card !! "url") as [url|]; [|done]. by rewrite Hfalsy.
Qed.

End CardClicks.

(** Clicks do not wear a card out: [n] clicks on a card with a non-empty
    [data-url] make [n] open calls, all with that URL and the target
    [_blank], while [n] clicks on a card whose [data-url] is missing or
    empty leave the window as it was.  Neither touches the document or the
    console. *)
Theorem repeated_clicks_reopen (n : nat) (card : element) (w : window) :
  (∀ url, el_dataset card !! "url" = Some url → url ≠ "" →
     opened (card_clicks n card w) = opened w ++ replicate n (url, "_blank")) ∧
  (truthy (el_dataset card !! "url") = false → card_clicks n card w = w) ∧
  document (card_clicks n card w) = document w ∧
  console_errors (card_clicks n card w) = console_errors w.
Proof.
  induction n as [|n (IHopen & IHinert & IHdoc & IHlog)].
  - split; [|done]. intros url _ _. simpl. by rewrite app_nil_r.
  - rewrite card_clicks_S. split; [|split].
    + intros url Hurl Hne. rewrite (card_onclick_opens _ _ url Hurl Hne).
      cbn [opened]. rewrite (IHopen url Hurl Hne), replicate_S_end.
      by rewrite app_assoc.
    + intros Hfalsy. rewrite (IHinert Hfalsy). by apply card_onclick_inert.
    + destruct (truthy (el_dataset card !! "url")) eqn:Htruthy.
      * destruct (el_dataset card !! "url") as [url|] eqn:Hurl; [|done].
        rewrite (card_onclick_opens _ _ url Hurl); [done|].
        intros ->. done.
      * by rewrite card_onclick_inert.
Qed.

Lemma repeated_clicks_reopen_witness :
  let card := Element None ["news-card"] {["url" := "https://example.com"]} "" "" "" in
  let w := Window (Page ∅ [] [card]) [] [] in
  el_dataset card !! "url" = Some "https://example.com" ∧
  opened (card_clicks 3 card w)
    = [("https://example.com", "_blank"); ("https://example.com", "_blank");
       ("https://example.com", "_blank")].
Proof.
  intros card w. split; [reflexivity|].
  rewrite (proj1 (repeated_clicks_reopen 3 card w) "https://example.com");
    [reflexivity|reflexivity|discriminate].
Defined.

(** ** CursorEffect: successive moves and what a move leaves alone *)

Section CursorFacts.
Context {number : Type} `{!NumberToString number}.
Import CursorEffect.

Implicit Types (e : @mouse_event number) (p : page).

Lemma onmousemove_elements e p circle :
  getElementById "cursor-effect" p = Some circle →
  elements (onmousemove e p)
    = alter (with_style_top (px (pageY e)) ∘ with_style_left (px (pageX e)))
            circle (elements p).
Proof.
  intros Hc. unfold onmousemove. rewrite Hc. simpl. apply list_alter_alter_eq.
Qed.

Lemma onmousemove_keeps_circle e p :
  getElementById "cursor-effect" (onmousemove e p) = getElementById "cursor-effect" p.
Proof.
  unfold onmousemove.
  destruct (getElementById "cursor-effect" p) as [circle|] eqn:Hc; [|done].
  by rewrite !getElementById_update.
Qed.

Lemma onmousemove_keeps_root e p :
  root_dataset (onmousemove e p) = root_dataset p ∧
  cookie_writes (onmousemove e p) = cookie_writes p.
Proof.
  unfold onmousemove. by destruct (getElementById "cursor-effect" p).
Qed.

End CursorFacts.

(** No history is kept: after two pointer moves the page is the one the
    second move alone would have produced. *)
Theorem last_pointer_move_wins {number : Type} `{!NumberToString number}
    (e1 e2 : @CursorEffect.mouse_event number) (p : page) :
  CursorEffect.onmousemove e2 (CursorEffect.onmousemove e1 p)
    = CursorEffect.onmousemove e2 p.
Proof.
  destruct (getElementById "cursor-effect" p) as [circle|] eqn:Hc.
  - assert (Hc1 : getElementById "cursor-effect" (CursorEffect.onmousemove e1 p) = Some circle)
      by (by rewrite onmousemove_keeps_circle).
    assert (Hpage : ∀ q q' : page,
      root_dataset q = root_dataset q' → cookie_writes q = cookie_writes q' →
      elements q = elements q' → q = q').
    { intros [] []; simpl; congruence. }
    apply Hpage.
    + rewrite !(proj1 (onmousemove_keeps_root _ _)). done.
    + rewrite !(proj2 (onmousemove_keeps_root _ _)). done.
    + rewrite (onmousemove_elements e2 _ circle Hc1), (onmousemove_elements e1 p circle Hc),
        (onmousemove_elements e2 p circle Hc), list_alter_alter_eq.
      by apply list_alter_ext.
  - unfold CursorEffect.onmousemove at 2 3. rewrite Hc.
    unfold CursorEffect.onmousemove. by rewrite Hc.
Qed.

(** A pointer move changes the two offsets of the first element with id
    [cursor-effect] and nothing else: the document element, the cookies and
    the number of elements stay, every element keeps its id, classes, data
    attributes and text, and every other element stays as it is. *)
Theorem pointer_move_changes_offsets_only {number : Type} `{!NumberToString number}
    (e : @CursorEffect.mouse_event number) (p : page) :
  root_dataset (CursorEffect.onmousemove e p) = root_dataset p ∧
  cookie_writes (CursorEffect.onmousemove e p) = cookie_writes p ∧
  length (elements (CursorEffect.onmousemove e p)) = length (elements p) ∧
  ∀ i el, elements p !! i = Some el →
    ∃ el', elements (CursorEffect.onmousemove e p) !! i = Some el' ∧
           el_id el' = el_id el ∧ el_class el' = el_class el ∧
           el_dataset el' = el_dataset el ∧ textContent el' = textContent el ∧
           (getElementById "cursor-effect" p ≠ Some i → el' = el).
Proof.
  destruct (getElementById "cursor-effect" p) as [circle|] eqn:Hc.
  - rewrite (onmousemove_elements e p circle Hc), length_alter.
    split; [apply onmousemove_keeps_root|]. split; [apply onmousemove_keeps_root|].
    split; [done|]. intros i el Hel.
    destruct (decide (circle = i)) as [-> | Hne].
    + rewrite list_lookup_alter_eq, Hel. simpl. eexists. split; [done|].
      repeat split; try done; intros Hi; by destruct Hi.
    + rewrite list_lookup_alter_ne by done. exists el. by repeat split.
  - unfold CursorEffect.onmousemove. rewrite Hc.
    repeat split; try done. intros i el Hel. exists el. by repeat split.
Qed.

Lemma pointer_move_changes_offsets_only_witness :
  let chip := Element (Some "weather-chip") ["chip"] ∅ "Sunny" "" "" in
  let circle := Element (Some "cursor-effect") [] ∅ "" "" "" in
  let p := Page ∅ [] [chip; circle] in
  let e := CursorEffect.MouseEvent 7%Z 9%Z in
  elements p !! 0 = Some chip ∧
  elements (CursorEffect.onmousemove e p) !! 0 = Some chip.
Proof.
  intros chip circle p e. split; [reflexivity|].
  destruct (proj2 (proj2 (proj2 (pointer_move_changes_offsets_only e p))) 0 chip eq_refl)
    as (el' & Hel' & _ & _ & _ & _ & Hsame).
  rewrite Hel'. f_equal. apply Hsame. discriminate.
Defined.

(** ** WeatherChip: every outcome of the fetch *)

Section WeatherOutcomes.
Context {number : Type} `{!NumberToString number}.
Import WeatherChip.

Implicit Types (fetched : completion (@response number)) (w : window).

(** Whatever the fetch brings, the document is left alone or gets one
    assignment to the text of the display element. *)
Lemma loadWeather_cases fetched w :
  opened (loadWeather fetched w).2 = opened w ∧
  (document (loadWeather fetched w).2 = document w ∨
   ∃ el text, getElementById "weather-chip" (document w) = Some el ∧
              document (loadWeather fetched w).2
                = update_element el (with_textContent text) (document w)).
Proof.
  unfold loadWeather, try_catch, loadWeather_try, await, get_element_by_id,
    set_textContent, console_error, mbind, M_bind, mret, M_ret.
  destruct fetched as [[st body]|err]; simpl; [|by auto].
  destruct (ok _); simpl; [|by auto].
  destruct body as [body|err]; simpl; [|by auto].
  destruct (getElementById "weather-chip" (document w)) as [el|]; simpl; [|by auto].
  destruct (get_title body) as [title|err]; simpl; [|by auto].
  destruct (template title) as [text|err]; simpl; [|by auto].
  split; [done|]. right. eauto.
Qed.

Lemma loadWeather_without_chip st body w :
  (200 ≤ st ≤ 299)%N →
  getElementById "weather-chip" (document w) = None →
  loadWeather (Normal (Response st (Normal body))) w = (Normal (), w).
Proof.
  intros Hst Hel.
  unfold loadWeather, try_catch, loadWeather_try, await, get_element_by_id,
    mbind, M_bind, ok.
  simpl. rewrite bool_decide_eq_true_2 by done. simpl.
  by rewrite Hel.
Qed.

(** The path on which the property read or the string conversion throws. *)
Lemma loadWeather_render_throws st body w el err :
  (200 ≤ st ≤ 299)%N →
  getElementById "weather-chip" (document w) = Some el →
  (get_title body = Throw err ∨
   ∃ title, get_title body = Normal title ∧ template title = Throw err) →
  loadWeather (Normal (Response st (Normal body))) w
    = (Normal (), Window (document w) (opened w)
                         (console_errors w ++ [("Weather fetch failed:", err)])).
Proof.
  intros Hst Hel Hthrow.
  unfold loadWeather, try_catch, loadWeather_try, await, get_element_by_id,
    set_textContent, console_error, mbind, M_bind, ok.
  simpl. rewrite bool_decide_eq_true_2 by done. simpl. rewrite Hel.
  destruct Hthrow as [-> | (title & -> & ->)]; done.
Qed.

End WeatherOutcomes.

(** Whatever the fetch brings, [loadWeather] ends normally, makes no open
    call and leaves the attributes of the document element and the cookies
    alone.  On a page without the display element the document stays as it
    is; on a page with it, the display element keeps its id, classes, data
    attributes and offsets. *)
Theorem weather_keeps_window_and_chip {number : Type} `{!NumberToString number}
    (fetched : completion (@WeatherChip.response number)) (w : window) :
  let after := WeatherChip.loadWeather fetched w in
  after.1 = Normal () ∧
  opened after.2 = opened w ∧
  root_dataset (document after.2) = root_dataset (document w) ∧
  cookie_writes (document after.2) = cookie_writes (document w) ∧
  (getElementById "weather-chip" (document w) = None →
     document after.2 = document w) ∧
  ∀ chip, element_of "weather-chip" (document w) = Some chip →
    ∃ chip', element_of "weather-chip" (document after.2) = Some chip' ∧
             el_id chip' = el_id chip ∧ el_class chip' = el_class chip ∧
             el_dataset chip' = el_dataset chip ∧
             style_left chip' = style_left chip ∧ style_top chip' = style_top chip.
Proof.
  simpl. split; [apply loadWeather_never_throws|].
  destruct (loadWeather_cases fetched w) as [Hopen [-> | (el & text & Hel & ->)]].
  - repeat split; try done. intros chip Hchip. exists chip. by repeat split.
  - repeat split; try done.
    + intros Hnone. by rewrite Hnone in Hel.
    + intros chip Hchip. rewrite element_of_update, Hchip by done.
      simpl. eexists. split; [done|]. by repeat split.
Qed.

Lemma weather_keeps_window_and_chip_witness :
  let chip := Element (Some "weather-chip") ["chip"] {["unit" := "C"]} "Loading" "4px" "2px" in
  let w := Window (Page ∅ [] [chip]) [] [] in
  let fetched := Normal (WeatherChip.Response 200 (Normal (Obj [("title", @Str Z "Rain")]))) in
  element_of "weather-chip" (document w) = Some chip ∧
  el_class <$> element_of "weather-chip" (document (WeatherChip.loadWeather fetched w).2)
    = Some ["chip"].
Proof.
  intros chip w fetched. split; [reflexivity|].
  destruct (weather_keeps_window_and_chip fetched w) as (_ & _ & _ & _ & _ & Hchip).
  destruct (Hchip chip eq_refl) as (chip' & Hchip' & _ & Hclass & _).
  rewrite Hchip'. simpl. by rewrite Hclass.
Defined.

(** On a page without the display element a response with a status from
    200 to 299 and a body that parses changes nothing and logs nothing,
    whatever the body: the title is never read, so even the body [null]
    raises no error. *)
Theorem weather_without_display_element {number : Type} `{!NumberToString number}
    (st : N) (body : value number) (w : window) :
  (200 ≤ st ≤ 299)%N →
  Forall (λ e, el_id e ≠ Some "weather-chip") (elements (document w)) →
  WeatherChip.loadWeather (Normal (WeatherChip.Response st (Normal body))) w
    = (Normal (), w).
Proof.
  intros Hst Hnone. apply loadWeather_without_chip; [done|].
  by apply getElementById_None.
Qed.

Lemma weather_without_display_element_witness :
  let w := Window (Page ∅ [] [Element (Some "cursor-effect") [] ∅ "" "" ""]) [] [] in
  (200 ≤ 204 ≤ 299)%N ∧
  WeatherChip.loadWeather (Normal (WeatherChip.Response 204 (Normal (@Null Z)))) w
    = (Normal (), w).
Proof.
  intros w. split; [lia|].
  apply (weather_without_display_element 204 Null w); [lia|].
  repeat constructor. discriminate.
Defined.

(** What is logged.  A rejected fetch, and a body that fails to parse under
    a status from 200 to 299, each make exactly one [console.error] call,
    with the label [Weather fetch failed:] and the error caught.  A status
    outside 200 to 299 ends [loadWeather] before the body is read: nothing
    is logged and the window stays as it was, even when the body would not
    parse. *)
Theorem weather_failure_logging {number : Type} `{!NumberToString number}
    (w : window) :
  (∀ err,
     console_errors (@WeatherChip.loadWeather number _ (Throw err) w).2
       = console_errors w ++ [("Weather fetch failed:", err)]) ∧
  (∀ st err, (200 ≤ st ≤ 299)%N →
     console_errors (WeatherChip.loadWeather
                       (Normal (@WeatherChip.Response number st (Throw err))) w).2
       = console_errors w ++ [("Weather fetch failed:", err)]) ∧
  (∀ resp : @WeatherChip.response number,
     ¬ (200 ≤ WeatherChip.status resp ≤ 299)%N →
     WeatherChip.loadWeather (Normal resp) w = (Normal (), w)).
Proof.
  split; [|split].
  - intros err. by rewrite loadWeather_rejected.
  - intros st err Hst. rewrite loadWeather_unparsed; [done|].
    unfold WeatherChip.ok. simpl. by apply bool_decide_eq_true_2.
  - intros resp Hst. apply loadWeather_not_ok.
    unfold WeatherChip.ok. by apply bool_decide_eq_false_2.
Qed.

Lemma weather_failure_logging_witness :
  let w := Window (Page ∅ [] [Element (Some "weather-chip") [] ∅ "Loading" "" ""]) [] [] in
  let broken := Thrown "SyntaxError" "Unexpected token" in
  ¬ (200 ≤ 500 ≤ 299)%N ∧
  WeatherChip.loadWeather (Normal (@WeatherChip.Response Z 500 (Throw broken))) w
    = (Normal (), w).
Proof.
  intros w broken.
  assert (Hst : ¬ (200 ≤ 500 ≤ 299)%N) by lia.
  split; [exact Hst|].
  exact (proj2 (proj2 (weather_failure_logging w))
           (@WeatherChip.Response Z 500 (Throw broken)) Hst).
Defined.

(** A title need not be a string.  Under a status from 200 to 299, with the
    display element on the page, a title that is [null], a boolean or a
    number is written as the text [null], [true] or [false], or the
    number's rendering, and nothing is logged. *)
Theorem primitive_title_is_rendered {number : Type} `{!NumberToString number}
    (st : N) (members : list (string * value number)) (title : value number)
    (w : window) :
  (200 ≤ st ≤ 299)%N →
  is_Some (getElementById "weather-chip" (document w)) →
  own_property "title" members = Some title →
  is_primitive title = true →
  let after := WeatherChip.loadWeather
                 (Normal (WeatherChip.Response st (Normal (Obj members)))) w in
  console_errors after.2 = console_errors w ∧
  ∃ text, text_of "weather-chip" (document after.2) = Some text ∧
          (title = Null → text = "null") ∧
          (title = Bool true → text = "true") ∧
          (title = Bool false → text = "false") ∧
          (∀ n, title = Num n → text = number_to_string n) ∧
          (∀ s, title = Str s → text = s).
Proof.
  intros Hst [el Hel] Htitle Hprim. simpl.
  assert (∃ text, to_string title = Normal text ∧
            (title = Null → text = "null") ∧
            (title = Bool true → text = "true") ∧
            (title = Bool false → text = "false") ∧
            (∀ n, title = Num n → text = number_to_string n) ∧
            (∀ s, title = Str s → text = s)) as (text & Htext & Hshape).
  { destruct title as [|[]|n|s| |]; try discriminate Hprim;
      eexists; (split; [reflexivity|]); repeat split; congruence. }
  rewrite (loadWeather_renders st (Obj members) w el (Some title) text); try done.
  - split; [done|]. exists text. split; [by apply text_of_rendered | done].
  - simpl. by rewrite Htitle.
Qed.

Lemma primitive_title_is_rendered_witness :
  let chip := Element (Some "weather-chip") [] ∅ "Loading" "" "" in
  let w := Window (Page ∅ [] [chip]) [] [] in
  let members : list (string * value Z) := [("title", Num 21%Z); ("unit", Str "C")] in
  own_property "title" members = Some (Num 21%Z) ∧
  text_of "weather-chip"
    (document (WeatherChip.loadWeather
                 (Normal (WeatherChip.Response 200 (Normal (Obj members)))) w).2)
    = Some "21".
Proof.
  intros chip w members. split; [reflexivity|].
  destruct (primitive_title_is_rendered 200 members (Num 21%Z) w)
    as (_ & text & Htext & _ & _ & _ & Hnum & _);
    [lia | by eexists | reflexivity | reflexivity |].
  rewrite Htext, (Hnum 21%Z eq_refl). reflexivity.
Defined.

(** A title that is itself an object is written as [[object Object]].  Only
    when that object has a member named [toString] does the conversion
    throw: then the text stays and one [TypeError] is logged. *)
Theorem object_title_is_rendered {number : Type} `{!NumberToString number}
    (st : N) (members inner : list (string * value number)) (w : window) :
  (200 ≤ st ≤ 299)%N →
  is_Some (getElementById "weather-chip" (document w)) →
  own_property "title" members = Some (Obj inner) →
  let after := WeatherChip.loadWeather
                 (Normal (WeatherChip.Response st (Normal (Obj members)))) w in
  (own_property "toString" inner = None →
     text_of "weather-chip" (document after.2) = Some "[object Object]" ∧
     console_errors after.2 = console_errors w) ∧
  (is_Some (own_property "toString" inner) →
     document after.2 = document w ∧
     ∃ err, err_name err = "TypeError" ∧
            console_errors after.2 = console_errors w ++ [("Weather fetch failed:", err)]).
Proof.
  intros Hst [el Hel] Htitle. simpl. split.
  - intros Hplain.
    rewrite (loadWeather_renders st (Obj members) w el (Some (Obj inner)) "[object Object]");
      try done.
    + split; [by apply text_of_rendered | done].
    + simpl. by rewrite Htitle.
    + simpl. by rewrite Hplain.
  - intros [shadow Hshadow].
    rewrite (loadWeather_render_throws st (Obj members) w el
               (type_error "Cannot convert object to primitive value")); try done.
    + split; [done|]. eexists. split; [|done]. done.
    + right. exists (Some (Obj inner)). simpl. by rewrite Htitle, Hshadow.
Qed.

Lemma object_title_is_rendered_witness :
  let chip := Element (Some "weather-chip") [] ∅ "Loading" "" "" in
  let w := Window (Page ∅ [] [chip]) [] [] in
  let inner : list (string * value Z) := [("text", Str "Sunny")] in
  let members : list (string * value Z) := [("title", Obj inner)] in
  own_property "toString" inner = None ∧
  text_of "weather-chip"
    (document (WeatherChip.loadWeather
                 (Normal (WeatherChip.Response 200 (Normal (Obj members)))) w).2)
    = Some "[object Object]".
Proof.
  intros chip w inner members. split; [reflexivity|].
  apply (proj1 (object_title_is_rendered 200 members inner w
                  ltac:(lia) ltac:(by eexists) eq_refl) eq_refl).
Defined.

(** The body [null] under a status from 200 to 299, with the display
    element on the page: reading the title throws, so the document and the
    open calls stay as they were and exactly one [TypeError] is logged. *)
Theorem null_body_is_logged {number : Type} `{!NumberToString number}
    (st : N) (w : window) :
  (200 ≤ st ≤ 299)%N →
  is_Some (getElementById "weather-chip" (document w)) →
  let after := WeatherChip.loadWeather
                 (Normal (WeatherChip.Response st (Normal (@Null number)))) w in
  after.1 = Normal () ∧
  document after.2 = document w ∧
  opened after.2 = opened w ∧
  ∃ err, err_name err = "TypeError" ∧
         console_errors after.2 = console_errors w ++ [("Weather fetch failed:", err)].
Proof.
  intros Hst [el Hel]. simpl.
  rewrite (loadWeather_render_throws st Null w el
             (type_error "Cannot read properties of null")); try done.
  - repeat split; try done. eexists. split; [|done]. done.
  - by left.
Qed.

Lemma null_body_is_logged_witness :
  let chip := Element (Some "weather-chip") [] ∅ "Loading" "" "" in
  let w := Window (Page ∅ [] [chip]) [] [] in
  (200 ≤ 200 ≤ 299)%N ∧
  document (WeatherChip.loadWeather
              (Normal (WeatherChip.Response 200 (Normal (@Null Z)))) w).2 = document w.
Proof.
  intros chip w. split; [lia|].
  apply (null_body_is_logged (number:=Z) 200 w); [lia | by eexists].
Defined.

(** ** The handlers do not interfere *)

Section Independence.
Context {number : Type} `{!NumberToString number}.

Implicit Types (e : @CursorEffect.mouse_event number) (p : page) (w : window).

Lemma toggle_keeps_elements_found id p :
  getElementById id (ThemeToggle.toggle_onclick p) = getElementById id p.
Proof. reflexivity. Qed.

(** [loadWeather] commutes with any change of the document that keeps the
    display element where it is and does not care about its text. *)
Lemma loadWeather_commutes (g : page → page)
    (fetched : completion (@WeatherChip.response number)) w :
  getElementById "weather-chip" (g (document w))
    = getElementById "weather-chip" (document w) →
  (∀ el text, getElementById "weather-chip" (document w) = Some el →
     g (update_element el (with_textContent text) (document w))
       = update_element el (with_textContent text) (g (document w))) →
  WeatherChip.loadWeather fetched (with_document (g (document w)) w)
    = ((WeatherChip.loadWeather fetched w).1,
       with_document (g (document (WeatherChip.loadWeather fetched w).2))
                     (WeatherChip.loadWeather fetched w).2).
Proof.
  intros Hfound Hswap.
  unfold WeatherChip.loadWeather, try_catch, WeatherChip.loadWeather_try, await,
    get_element_by_id, set_textContent, console_error, mbind, M_bind, mret, M_ret.
  destruct fetched as [[st body]|err]; simpl; [|done].
  destruct (WeatherChip.ok _); simpl; [|done].
  destruct body as [body|err]; simpl; [|done].
  rewrite Hfound.
  destruct (getElementById "weather-chip" (document w)) as [el|] eqn:Hel; simpl; [|done].
  destruct (get_title body) as [title|err]; simpl; [|done].
  destruct (template title) as [text|err]; simpl; [|done].
  unfold with_document. simpl. by rewrite Hswap.
Qed.

End Independence.

(** A click on the toggle and a pointer move can come in either order: the
    page they leave is the same. *)
Theorem theme_and_cursor_commute {number : Type} `{!NumberToString number}
    (e : @CursorEffect.mouse_event number) (p : page) :
  ThemeToggle.toggle_onclick (CursorEffect.onmousemove e p)
    = CursorEffect.onmousemove e (ThemeToggle.toggle_onclick p).
Proof.
  unfold CursorEffect.onmousemove at 2. rewrite toggle_keeps_elements_found.
  unfold CursorEffect.onmousemove.
  by destruct (getElementById "cursor-effect" p).
Qed.

(** The weather chip and the theme toggle do not depend on each other:
    whether a click on the toggle happens before [loadWeather] resumes or
    after it has finished, the window ends up the same and [loadWeather]
    ends the same way. *)
Theorem weather_and_theme_commute {number : Type} `{!NumberToString number}
    (fetched : completion (@WeatherChip.response number)) (w : window) :
  let after := WeatherChip.loadWeather fetched w in
  WeatherChip.loadWeather fetched
      (with_document (ThemeToggle.toggle_onclick (document w)) w)
    = (after.1, with_document (ThemeToggle.toggle_onclick (document after.2)) after.2).
Proof.
  simpl. apply (loadWeather_commutes ThemeToggle.toggle_onclick); [done|].
  by intros el text _.
Qed.
